(** * pyccl.power: the power-spectrum query functions

    A shallow embedding of [pyccl/power.py].  The module is a thin layer
    over the compiled CCL library ([lib]): every function normalises its
    varying argument with [np.atleast_1d], calls one vectorised routine
    of the library on the handle [cosmo.cosmo], passes the returned status
    to [check], and unwraps the result again when the argument was a
    scalar.

    Python values are modelled as follows.
    - A float is an IEEE binary64 number: Rocq's primitive [float].
    - A numeric argument ("int, float or (n,) array_like") is an [ndarray]
      of dimension 0 or 1.
    - The [cosmo] object is mutable and passed by reference: the functions
      run in a state-and-exception monad [Py] over a [World] holding the
      object, together with the chronological list of the calls made on
      the object and on the library.
    - The compiled library and the numpy/package constants the module
      imports are parameters ([Lib], [Imports]).  A routine of the
      library computes from the contents of the structure behind
      [cosmo.cosmo]; it may leave a diagnostic message in the structure,
      and its wrapper may raise instead of returning.
    - The [@warn_api] decorator only renames deprecated keyword arguments
      and forwards the call; it is transparent here. *)

From Stdlib Require Import ZArith List String Floats.PrimFloat.
From stdpp Require Import base option list gmap strings.

Local Open Scope Z_scope.

(** ** Values *)

(** A numpy array of dimension 0 (a Python or numpy scalar) or 1. *)
Inductive ndarray :=
| Scalar (x : float)
| Array1 (xs : list float).

(** [np.ndim]. *)
Definition ndim (v : ndarray) : nat :=
  match v with
  | Scalar _ => 0%nat
  | Array1 _ => 1%nat
  end.

(** [np.atleast_1d]: a scalar becomes an array of one entry, an array is
    returned as it is. *)
Definition atleast_1d (v : ndarray) : list float :=
  match v with
  | Scalar x => [x]
  | Array1 xs => xs
  end.

(** ** Exceptions and results *)

Inductive exn :=
| CCLError (status : Z) (msg : string)
| KeyError (key : string)
| IndexError
| TypeError
| ZeroDivisionError.

Inductive res (A : Type) :=
| Ok (a : A)
| Raise (e : exn).
Arguments Ok {A} a.
Arguments Raise {A} e.

(** ** The cosmology object *)

(** A pointer to a tabulated two-dimensional spectrum of the library. *)
Definition ccl_f2d_t := N.

(** What the routines of the library compute from: the parameters and
    splines of the structure, and whether its variance table has been
    built. *)
Record ccl_contents := mk_ccl_contents {
  data : N;
  computed_sigma : bool
}.

(** The library-side structure behind [cosmo.cosmo]: its contents, and
    the buffer in which a routine leaves its diagnostic message. *)
Record ccl_cosmology := mk_ccl_cosmology {
  contents : ccl_contents;
  status_message : string
}.

(** A power spectrum stored in the object: a wrapper around the
    library's handle. *)
Record Pk2D := mk_Pk2D { psp : ccl_f2d_t }.

(** The parameters read with [cosmo["h"]] and [cosmo["sigma8"]]. *)
Record CosmologyParams := mk_CosmologyParams {
  param_h : float;
  param_sigma8 : float
}.

Record Cosmology := mk_Cosmology {
  cosmo : ccl_cosmology;
  params : CosmologyParams;
  pk_lin : gmap string Pk2D;
  pk_nl : gmap string Pk2D
}.

(** The object with its [sigma8] parameter set to [x]; everything else,
    the library-side structure included, is as before. *)
Definition set_sigma8 (x : float) (c : Cosmology) : Cosmology :=
  mk_Cosmology (cosmo c) (mk_CosmologyParams (param_h (params c)) x)
    (pk_lin c) (pk_nl c).

(** The object with the variance table of its library-side structure
    built: unchanged when the table is there already. *)
Definition with_sigma_table (c : Cosmology) : Cosmology :=
  if computed_sigma (contents (cosmo c)) then c
  else mk_Cosmology
         (mk_ccl_cosmology (mk_ccl_contents (data (contents (cosmo c))) true)
            (status_message (cosmo c)))
         (params c) (pk_lin c) (pk_nl c).

(** The object after a routine of the library has run on its structure:
    the diagnostic buffer holds the message the routine wrote, if it
    wrote one; everything else is as before. *)
Definition wrote (msg : option string) (c : Cosmology) : Cosmology :=
  match msg with
  | Some m =>
      mk_Cosmology (mk_ccl_cosmology (contents (cosmo c)) m)
        (params c) (pk_lin c) (pk_nl c)
  | None => c
  end.

(** ** The calls a function makes, in order *)

Inductive Event :=
| compute_sigma_called
| parse_pk2d_called (p_of_k_a : string) (is_linear : bool)
| get_linear_power_called (name : string)
| get_nonlin_power_called (name : string)
| fill_params_called (sigma8 : ndarray)
| pk_called (c : ccl_cosmology) (p : ccl_f2d_t) (k a : ndarray)
| sigM_vec_called (c : ccl_cosmology) (a : ndarray) (logM : list float)
    (nout : nat) (status : Z)
| sigmaR_vec_called (c : ccl_cosmology) (p : ccl_f2d_t) (a : ndarray)
    (R : list float) (nout : nat) (status : Z)
| sigmaV_vec_called (c : ccl_cosmology) (p : ccl_f2d_t) (a : ndarray)
    (R : list float) (nout : nat) (status : Z)
| kNL_vec_called (c : ccl_cosmology) (p : ccl_f2d_t) (a : list float)
    (nout : nat) (status : Z).

Record World := mk_World {
  self : Cosmology;
  trace : list Event
}.

(** ** The monad of Python computations on the object *)

Definition Py (A : Type) : Type := World -> res A * World.

Definition ret {A} (a : A) : Py A := fun w => (Ok a, w).

Definition raise {A} (e : exn) : Py A := fun w => (Raise e, w).

Definition bind {A B} (m : Py A) (f : A -> Py B) : Py B :=
  fun w =>
    match m w with
    | (Ok a, w') => f a w'
    | (Raise e, w') => (Raise e, w')
    end.

Declare Scope py_scope.
Delimit Scope py_scope with py.
Notation "x <- m ;; k" := (bind m (fun x => k))
  (at level 100, m at next level, right associativity) : py_scope.
Notation "m ;;; k" := (bind m (fun _ => k))
  (at level 100, right associativity) : py_scope.

Definition log (ev : Event) : Py unit :=
  fun w => (Ok tt, mk_World (self w) (trace w ++ [ev])).

Definition gets {A} (f : Cosmology -> A) : Py A :=
  fun w => (Ok (f (self w)), w).

Definition modify (f : Cosmology -> Cosmology) : Py unit :=
  fun w => (Ok tt, mk_World (f (self w)) (trace w)).

Definition lift {A} (r : res A) : Py A := fun w => (r, w).

(** A call into the library on the structure of the object: the call is
    logged, the message the routine wrote is in the structure when the
    call comes back, and the call returns or raises as the wrapper
    does. *)
Definition call {A} (ev : Event) (r : res A * option string) : Py A :=
  (log ev ;;;
   modify (wrote r.2) ;;;
   lift r.1)%py.

(** [x[0]] on a one-dimensional array. *)
Definition item0 (xs : list float) : Py float :=
  match xs with
  | x :: _ => ret x
  | [] => raise IndexError
  end.

(** Python's [x / y] on floats. *)
Definition truediv (x y : float) : Py float :=
  if PrimFloat.eqb y 0%float then raise ZeroDivisionError
  else ret (PrimFloat.div x y).

(** ** What the module imports *)

(** What a call into the library comes back with: the value its
    wrapper returns, or the exception the wrapper raises (on an argument
    it cannot convert, say), and the diagnostic message the routine has
    written into the structure, if it has written one. *)
Definition reply (A : Type) : Type := res A * option string.

(** The vectorised routines of the compiled library.  Each takes the
    library-side cosmology, of which it reads the contents, its
    arguments, the length of the output and the incoming status, and
    returns the output array with the status. *)
Class Lib := {
  sigM_vec : ccl_contents -> ndarray -> list float -> nat -> Z ->
             reply (list float * Z);
  sigmaR_vec : ccl_contents -> ccl_f2d_t -> ndarray -> list float -> nat ->
               Z -> reply (list float * Z);
  sigmaV_vec : ccl_contents -> ccl_f2d_t -> ndarray -> list float -> nat ->
               Z -> reply (list float * Z);
  kNL_vec : ccl_contents -> ccl_f2d_t -> list float -> nat -> Z ->
            reply (list float * Z);
  pk_eval : ccl_contents -> ccl_f2d_t -> ndarray -> ndarray -> reply ndarray
}.

(** [np.log10] on one float, and the package constant
    [DEFAULT_POWER_SPECTRUM]. *)
Class Imports := {
  log10 : float -> float;
  DEFAULT_POWER_SPECTRUM : string
}.

Local Open Scope py_scope.

Section Power.

Context {L : Lib} {I : Imports}.

(** *** Methods of the object that live outside this module *)

(** Modelled from the spec: [Cosmology.__getitem__], in the class
    declaration, not in this module.  Read access to the scalar
    parameters [h] and [sigma8]. *)
Definition getitem (key : string) : Py float :=
  if String.eqb key "h" then gets (fun c => param_h (params c))
  else if String.eqb key "sigma8" then gets (fun c => param_sigma8 (params c))
  else raise (KeyError key).

(** Modelled from the spec: [Cosmology._fill_params], in the class
    declaration, not in this module.  The internal write method that
    fills the named parameter in place; the parameter is a C double, so
    only a scalar can be stored. *)
Definition _fill_params (sigma8 : ndarray) : Py unit :=
  log (fill_params_called sigma8) ;;;
  match sigma8 with
  | Scalar x => modify (set_sigma8 x)
  | Array1 _ => raise TypeError
  end.

(** Modelled from the spec: [Cosmology.compute_sigma], in the class
    declaration, not in this module.  The idempotent step that ensures
    the variance table is built: it builds the lazily built table when
    it is missing and does nothing when it is there. *)
Definition compute_sigma : Py unit :=
  log compute_sigma_called ;;;
  modify with_sigma_table.

(** Modelled from the spec: [Cosmology.parse_pk2d], in the class
    declaration, not in this module.  Resolves an identifier to the
    library handle of the spectrum stored under it, among the linear
    spectra when [is_linear] is set and among the non-linear ones
    otherwise. *)
Definition parse_pk2d (p_of_k_a : string) (is_linear : bool) : Py ccl_f2d_t :=
  log (parse_pk2d_called p_of_k_a is_linear) ;;;
  store <- gets (if is_linear then pk_lin else pk_nl) ;;
  match store !! p_of_k_a with
  | Some pk => ret (psp pk)
  | None => raise (KeyError p_of_k_a)
  end.

(** Modelled from the spec: [Cosmology.get_linear_power], in the class
    declaration, not in this module.  The linear spectrum registered
    under the identifier. *)
Definition get_linear_power (name : string) : Py Pk2D :=
  log (get_linear_power_called name) ;;;
  store <- gets pk_lin ;;
  match store !! name with
  | Some pk => ret pk
  | None => raise (KeyError name)
  end.

(** Modelled from the spec: [Cosmology.get_nonlin_power], in the class
    declaration, not in this module.  The non-linear spectrum registered
    under the identifier. *)
Definition get_nonlin_power (name : string) : Py Pk2D :=
  log (get_nonlin_power_called name) ;;;
  store <- gets pk_nl ;;
  match store !! name with
  | Some pk => ret pk
  | None => raise (KeyError name)
  end.

(** Modelled from the spec: [Pk2D.__call__], in the spectrum class, not
    in this module.  Evaluates the spectrum at [(k, a)] through the
    library, with whatever validation the evaluator enforces. *)
Definition Pk2D_call (pk : Pk2D) (k a : ndarray) : Py ndarray :=
  c <- gets cosmo ;;
  call (pk_called c (psp pk) k a) (pk_eval (contents c) (psp pk) k a).

(** Modelled from the spec: [check], in the package, not in this module.
    Status zero passes; any other status raises an error carrying the
    diagnostic state of the context. *)
Definition check (status : Z) : Py unit :=
  if status =? 0 then ret tt
  else
    msg <- gets (fun c => status_message (cosmo c)) ;;
    raise (CCLError status msg).

(** *** Calls into the compiled library

    [lib.f(cosmo.cosmo, ...)]: the routine runs on the structure [c] of
    the object. *)

Definition lib_sigM_vec (c : ccl_cosmology) (a : ndarray) (logM : list float)
    (nout : nat) (status : Z) : Py (list float * Z) :=
  call (sigM_vec_called c a logM nout status)
    (sigM_vec (contents c) a logM nout status).

Definition lib_sigmaR_vec (c : ccl_cosmology) (p : ccl_f2d_t) (a : ndarray)
    (R : list float) (nout : nat) (status : Z) : Py (list float * Z) :=
  call (sigmaR_vec_called c p a R nout status)
    (sigmaR_vec (contents c) p a R nout status).

Definition lib_sigmaV_vec (c : ccl_cosmology) (p : ccl_f2d_t) (a : ndarray)
    (R : list float) (nout : nat) (status : Z) : Py (list float * Z) :=
  call (sigmaV_vec_called c p a R nout status)
    (sigmaV_vec (contents c) p a R nout status).

Definition lib_kNL_vec (c : ccl_cosmology) (p : ccl_f2d_t) (a : list float)
    (nout : nat) (status : Z) : Py (list float * Z) :=
  call (kNL_vec_called c p a nout status)
    (kNL_vec (contents c) p a nout status).

(** *** The functions of the module *)

(** [linear_power(cosmo, k, a, *, p_of_k_a)]:
    [cosmo.get_linear_power(p_of_k_a)(k, a, cosmo)]. *)
Definition linear_power (k a : ndarray) (p_of_k_a : string) : Py ndarray :=
  pk <- get_linear_power p_of_k_a ;;
  Pk2D_call pk k a.

(** [nonlin_power(cosmo, k, a, *, p_of_k_a)]:
    [cosmo.get_nonlin_power(p_of_k_a)(k, a, cosmo)]. *)
Definition nonlin_power (k a : ndarray) (p_of_k_a : string) : Py ndarray :=
  pk <- get_nonlin_power p_of_k_a ;;
  Pk2D_call pk k a.

(** The functions below call methods of the object ([cosmo.linear_power],
    [cosmo.nonlin_power], [cosmo.sigmaR]); the class binds them. *)
Record Methods := {
  method_linear_power : ndarray -> ndarray -> string -> Py ndarray;
  method_nonlin_power : ndarray -> ndarray -> string -> Py ndarray;
  method_sigmaR : ndarray -> ndarray -> string -> Py ndarray
}.

(** [linear_matter_power(cosmo, k, a)]:
    [cosmo.linear_power(k, a, p_of_k_a=DEFAULT_POWER_SPECTRUM)]. *)
Definition linear_matter_power (cls : Methods) (k a : ndarray) : Py ndarray :=
  method_linear_power cls k a DEFAULT_POWER_SPECTRUM.

(** [nonlin_matter_power(cosmo, k, a)]:
    [cosmo.nonlin_power(k, a, p_of_k_a=DEFAULT_POWER_SPECTRUM)]. *)
Definition nonlin_matter_power (cls : Methods) (k a : ndarray) : Py ndarray :=
  method_nonlin_power cls k a DEFAULT_POWER_SPECTRUM.

(** [sigmaM(cosmo, M, a)]. *)
Definition sigmaM (M a : ndarray) : Py ndarray :=
  compute_sigma ;;;
  let logM := map log10 (atleast_1d M) in
  let status := 0 in
  c <- gets cosmo ;;
  r <- lib_sigM_vec c a logM (length logM) status ;;
  let '(sigM, status) := r in
  check status ;;;
  if Nat.eqb (ndim M) 0 then
    x <- item0 sigM ;; ret (Scalar x)
  else ret (Array1 sigM).

(** [sigmaR(cosmo, R, a=1, *, p_of_k_a=DEFAULT_POWER_SPECTRUM)]; the
    caller supplies the defaults. *)
Definition sigmaR (R a : ndarray) (p_of_k_a : string) : Py ndarray :=
  psp <- parse_pk2d p_of_k_a true ;;
  let status := 0 in
  let R_use := atleast_1d R in
  c <- gets cosmo ;;
  r <- lib_sigmaR_vec c psp a R_use (length R_use) status ;;
  let '(sR, status) := r in
  check status ;;;
  if Nat.eqb (ndim R) 0 then
    x <- item0 sR ;; ret (Scalar x)
  else ret (Array1 sR).

(** [sigmaV(cosmo, R, a=1, *, p_of_k_a=DEFAULT_POWER_SPECTRUM)]. *)
Definition sigmaV (R a : ndarray) (p_of_k_a : string) : Py ndarray :=
  psp <- parse_pk2d p_of_k_a true ;;
  let status := 0 in
  let R_use := atleast_1d R in
  c <- gets cosmo ;;
  r <- lib_sigmaV_vec c psp a R_use (length R_use) status ;;
  let '(sV, status) := r in
  check status ;;;
  if Nat.eqb (ndim R) 0 then
    x <- item0 sV ;; ret (Scalar x)
  else ret (Array1 sV).

(** [sigma8(cosmo, *, p_of_k_a=DEFAULT_POWER_SPECTRUM)]; [cosmo.sigmaR] is
    called with its default scale factor [a=1]. *)
Definition sigma8 (cls : Methods) (p_of_k_a : string) : Py ndarray :=
  h <- getitem "h" ;;
  R <- truediv 8%float h ;;
  sig8 <- method_sigmaR cls (Scalar R) (Scalar 1%float) p_of_k_a ;;
  s <- getitem "sigma8" ;;
  (if PrimFloat.is_nan s then _fill_params sig8 else ret tt) ;;;
  ret sig8.

(** [kNL(cosmo, a, *, p_of_k_a=DEFAULT_POWER_SPECTRUM)]. *)
Definition kNL (a : ndarray) (p_of_k_a : string) : Py ndarray :=
  psp <- parse_pk2d p_of_k_a true ;;
  let status := 0 in
  let a_use := atleast_1d a in
  c <- gets cosmo ;;
  r <- lib_kNL_vec c psp a_use (length a_use) status ;;
  let '(knl, status) := r in
  check status ;;;
  if Nat.eqb (ndim a) 0 then
    x <- item0 knl ;; ret (Scalar x)
  else ret (Array1 knl).

(** Modelled from the spec: the method table of the [Cosmology] class,
    in the class declaration, not in this module.  The methods the
    module calls on the object are the module's own operations of the
    same name, bound to the object. *)
Definition Cosmology_class : Methods := {|
  method_linear_power := linear_power;
  method_nonlin_power := nonlin_power;
  method_sigmaR := sigmaR
|}.

End Power.

(** ** Shapes *)

(** [np.shape]: empty for a scalar, the length for an array. *)
Definition shape (v : ndarray) : list nat :=
  match v with
  | Scalar _ => []
  | Array1 xs => [length xs]
  end.

(** ** The common tail of the four vectorised queries *)

(** What [sigmaM], [sigmaR], [sigmaV] and [kNL] do once the library has
    answered [(out, status)] for the argument [v]: the status check and
    the unwrapping of a scalar. *)
Definition finish (v : ndarray) (out : list float) (status : Z) : Py ndarray :=
  check status ;;;
  if Nat.eqb (ndim v) 0 then
    x <- item0 out ;; ret (Scalar x)
  else ret (Array1 out).

(** What they do once the library has replied: the message the routine
    wrote is in the structure, an exception of the wrapper goes on to
    the caller, and a returned output goes through [finish]. *)
Definition conclude (v : ndarray) (r : reply (list float * Z)) : Py ndarray :=
  modify (wrote r.2) ;;;
  match r.1 with
  | Ok (out, status) => finish v out status
  | Raise e => raise e
  end.

(** The world after a function has logged the events [evs] and left the
    object as [c]. *)
Definition after (c : Cosmology) (w : World) (evs : list Event) : World :=
  mk_World c (trace w ++ evs).

(** ** The four vectorised queries, uniformly *)

Inductive Query := q_sigmaM | q_sigmaR | q_sigmaV | q_kNL.

(** The call [f(cosmo, v, ...)] of the query [q] with varying argument
    [v]: the mass for [sigmaM], the radius for [sigmaR] and [sigmaV], the
    scale factor for [kNL].  [a] is the scale factor of the first three,
    [p] the spectrum identifier of the last three. *)
Definition query {L : Lib} {I : Imports} (q : Query) (v a : ndarray) (p : string) :
    Py ndarray :=
  match q with
  | q_sigmaM => sigmaM v a
  | q_sigmaR => sigmaR v a p
  | q_sigmaV => sigmaV v a p
  | q_kNL => kNL v p
  end.

(** What the library replies to the one call the query makes from the
    world [w], and [None] when the identifier does not resolve, so that
    the library is not reached. *)
Definition library_answer {L : Lib} {I : Imports} (q : Query) (w : World)
    (v a : ndarray) (p : string) : option (reply (list float * Z)) :=
  let x := atleast_1d v in
  let c := contents (cosmo (self w)) in
  match q with
  | q_sigmaM =>
      let logM := map log10 x in
      Some (sigM_vec (contents (cosmo (with_sigma_table (self w)))) a logM
              (length logM) 0)
  | q_sigmaR =>
      match pk_lin (self w) !! p with
      | Some pk => Some (sigmaR_vec c (psp pk) a x (length x) 0)
      | None => None
      end
  | q_sigmaV =>
      match pk_lin (self w) !! p with
      | Some pk => Some (sigmaV_vec c (psp pk) a x (length x) 0)
      | None => None
      end
  | q_kNL =>
      match pk_lin (self w) !! p with
      | Some pk => Some (kNL_vec c (psp pk) x (length x) 0)
      | None => None
      end
  end.


(** The parameters and the registries of spectra of the object, that is
    the object without its library-side structure, are the same in [c']
    as in [c]. *)
Definition same_parameters_and_spectra (c c' : Cosmology) : Prop :=
  params c' = params c /\ pk_lin c' = pk_lin c /\ pk_nl c' = pk_nl c.

(** ** A concrete setting *)

(** A small library, a set of imports and a few objects on which the
    functions can be run.  The library mimics the failures of the real
    one: the mass variance needs the variance table and a scalar scale
    factor, a negative radius is refused; a routine that fails leaves
    its message in the structure. *)
Module Example.

Definition E_NEGATIVE_RADIUS : Z := 1025.
Definition E_NO_TABLE : Z := 1026.

Definition halve (x : float) : float := PrimFloat.mul x 0.5%float.

Definition scale5 (x : float) : float := PrimFloat.mul x 0.03125%float.

Definition negative (x : float) : bool := PrimFloat.ltb x 0%float.

Definition fails (nout : nat) (status : Z) (msg : string) :
    reply (list float * Z) :=
  (Ok (repeat PrimFloat.nan nout, status), Some msg).

#[export] Instance lib : Lib := {|
  sigM_vec c a logM nout status :=
    match a with
    | Array1 _ => (Raise TypeError, None)
    | Scalar _ =>
        if computed_sigma c then (Ok (map halve logM, status), None)
        else fails nout E_NO_TABLE "sigma(M) table not computed"
    end;
  sigmaR_vec c p a R nout status :=
    if existsb negative R then fails nout E_NEGATIVE_RADIUS "negative radius"
    else (Ok (map scale5 R, status), None);
  sigmaV_vec c p a R nout status :=
    if existsb negative R then fails nout E_NEGATIVE_RADIUS "negative radius"
    else (Ok (map halve R, status), None);
  kNL_vec c p a nout status := (Ok (map halve a, status), None);
  pk_eval c p k a := (Ok k, None)
|}.

(** A library that reports success and returns no entry, whatever the
    length it is asked for. *)
Definition empty_lib : Lib := {|
  sigM_vec c a logM nout status := (Ok ([], status), None);
  sigmaR_vec c p a R nout status := (Ok ([], status), None);
  sigmaV_vec c p a R nout status := (Ok ([], status), None);
  kNL_vec c p a nout status := (Ok ([], status), None);
  pk_eval c p k a := (Ok k, None)
|}.

(** A table that stands for [np.log10] on the masses used below. *)
Definition log10_table (x : float) : float :=
  if PrimFloat.eqb x 1%float then 0%float
  else if PrimFloat.eqb x 100%float then 2%float
  else if PrimFloat.eqb x 10000%float then 4%float
  else PrimFloat.nan.

#[export] Instance imports : Imports := {|
  log10 := log10_table;
  DEFAULT_POWER_SPECTRUM := "delta_matter:delta_matter"
|}.

Definition matter : string := "delta_matter:delta_matter".

(** An identifier registered among the non-linear spectra only. *)
Definition halo : string := "halo:halo".

Definition fresh_handle : ccl_cosmology :=
  mk_ccl_cosmology (mk_ccl_contents 1%N false) "".

(** An object as it is after creation: no variance table, [sigma8] not
    defined. *)
Definition fresh : Cosmology :=
  mk_Cosmology fresh_handle
    (mk_CosmologyParams 0.5%float PrimFloat.nan)
    {[ matter := mk_Pk2D 1%N ]}
    {[ matter := mk_Pk2D 2%N; halo := mk_Pk2D 3%N ]}.

(** An object created with [sigma8 = 0.75] given. *)
Definition normalised : Cosmology :=
  mk_Cosmology fresh_handle
    (mk_CosmologyParams 0.5%float 0.75%float)
    {[ matter := mk_Pk2D 1%N ]}
    {[ matter := mk_Pk2D 2%N; halo := mk_Pk2D 3%N ]}.

Definition start (c : Cosmology) : World := mk_World c [].

End Example.

(** * Properties *)

(** ** Running the queries *)

Section Runs.

Context {L : Lib} {I : Imports}.


Lemma finish_array xs out w :
  finish (Array1 xs) out 0 w = (Ok (Array1 out), w).
Proof. reflexivity. Qed.

Lemma finish_self v out status w :
  snd (finish v out status w) = w.
Proof.
  unfold finish, check, bind.
  destruct (status =? 0); [|reflexivity].
  destruct v, out; reflexivity.
Qed.

Lemma finish_ndim v out status w r w' :
  finish v out status w = (Ok r, w') -> ndim r = ndim v.
Proof.
  unfold finish, check, bind.
  destruct (status =? 0); [|discriminate].
  destruct v, out; simpl; intros [= <- _]; reflexivity || discriminate.
Qed.

Lemma finish_success v out w :
  length out = length (atleast_1d v) ->
  exists r, finish v out 0 w = (Ok r, w) /\ atleast_1d r = out /\
            shape r = shape v.
Proof.
  destruct v as [x|xs]; simpl; intros Hlen.
  - destruct out as [|y [|z out]]; try discriminate.
    exists (Scalar y). repeat split.
  - exists (Array1 out). repeat split. simpl. congruence.
Qed.

(** *** What a reply of the library leaves in the object *)

Lemma wrote_contents m c : contents (cosmo (wrote m c)) = contents (cosmo c).
Proof. destruct m; reflexivity. Qed.


Lemma wrote_same m c : same_parameters_and_spectra c (wrote m c).
Proof. destruct m; repeat split. Qed.

Lemma wrote_twice m c : wrote m (wrote m c) = wrote m c.
Proof. destruct m; reflexivity. Qed.

Lemma same_refl c : same_parameters_and_spectra c c.
Proof. repeat split. Qed.

Lemma same_trans c1 c2 c3 :
  same_parameters_and_spectra c1 c2 -> same_parameters_and_spectra c2 c3 ->
  same_parameters_and_spectra c1 c3.
Proof. intros (?&?&?) (?&?&?). repeat split; congruence. Qed.

Lemma with_sigma_table_message c :
  status_message (cosmo (with_sigma_table c)) = status_message (cosmo c).
Proof.
  unfold with_sigma_table.
  destruct (computed_sigma (contents (cosmo c))); reflexivity.
Qed.

Lemma with_sigma_table_built c :
  computed_sigma (contents (cosmo (with_sigma_table c))) = true.
Proof.
  unfold with_sigma_table.
  destruct (computed_sigma (contents (cosmo c))) eqn:E; [exact E|reflexivity].
Qed.

Lemma with_sigma_table_same c :
  same_parameters_and_spectra c (with_sigma_table c).
Proof.
  unfold with_sigma_table.
  destruct (computed_sigma (contents (cosmo c))); repeat split.
Qed.

Lemma conclude_world v r w :
  (conclude v r w).2 = mk_World (wrote r.2 (self w)) (trace w).
Proof.
  unfold conclude, bind, modify, raise. simpl.
  destruct r as [[[out st]|e] m]; simpl; [|reflexivity].
  apply finish_self.
Qed.

Lemma conclude_ok v out st m w :
  conclude v (Ok (out, st), m) w
    = finish v out st (mk_World (wrote m (self w)) (trace w)).
Proof. reflexivity. Qed.

Lemma conclude_raise v e m w :
  conclude v (Raise e, m) w
    = (Raise e, mk_World (wrote m (self w)) (trace w)).
Proof. reflexivity. Qed.

(** *** The four queries *)

Lemma sigmaM_run M a w :
  let c := cosmo (with_sigma_table (self w)) in
  let logM := map log10 (atleast_1d M) in
  sigmaM M a w
    = conclude M (sigM_vec (contents c) a logM (length logM) 0)
        (after (with_sigma_table (self w)) w
           [compute_sigma_called; sigM_vec_called c a logM (length logM) 0]).
Proof.
  intros c logM. unfold sigmaM, bind at 1 2 3, compute_sigma, bind, log,
    modify, gets, lib_sigM_vec, call, conclude, bind, log, modify, lift,
    raise, after; simpl.
  fold c logM.
  destruct (sigM_vec (contents c) a logM (length logM) 0)
    as [[[out st]|e] m]; simpl; rewrite <- app_assoc; reflexivity.
Qed.

Lemma sigmaR_run R a p w :
  sigmaR R a p w
    = match pk_lin (self w) !! p with
      | None => (Raise (KeyError p), after (self w) w [parse_pk2d_called p true])
      | Some pk =>
          let c := cosmo (self w) in
          let x := atleast_1d R in
          conclude R (sigmaR_vec (contents c) (psp pk) a x (length x) 0)
            (after (self w) w
               [parse_pk2d_called p true;
                sigmaR_vec_called c (psp pk) a x (length x) 0])
      end.
Proof.
  unfold sigmaR, bind at 1 2 3 4, parse_pk2d, bind, log, gets, lib_sigmaR_vec,
    call, conclude, bind, log, modify, lift, ret, raise, after; simpl.
  destruct (pk_lin (self w) !! p) as [pk|]; simpl; [|reflexivity].
  destruct (sigmaR_vec _ _ _ _ _ 0) as [[[out st]|e] m]; simpl;
    rewrite <- app_assoc; reflexivity.
Qed.

Lemma sigmaV_run R a p w :
  sigmaV R a p w
    = match pk_lin (self w) !! p with
      | None => (Raise (KeyError p), after (self w) w [parse_pk2d_called p true])
      | Some pk =>
          let c := cosmo (self w) in
          let x := atleast_1d R in
          conclude R (sigmaV_vec (contents c) (psp pk) a x (length x) 0)
            (after (self w) w
               [parse_pk2d_called p true;
                sigmaV_vec_called c (psp pk) a x (length x) 0])
      end.
Proof.
  unfold sigmaV, bind at 1 2 3 4, parse_pk2d, bind, log, gets, lib_sigmaV_vec,
    call, conclude, bind, log, modify, lift, ret, raise, after; simpl.
  destruct (pk_lin (self w) !! p) as [pk|]; simpl; [|reflexivity].
  destruct (sigmaV_vec _ _ _ _ _ 0) as [[[out st]|e] m]; simpl;
    rewrite <- app_assoc; reflexivity.
Qed.

Lemma kNL_run a p w :
  kNL a p w
    = match pk_lin (self w) !! p with
      | None => (Raise (KeyError p), after (self w) w [parse_pk2d_called p true])
      | Some pk =>
          let c := cosmo (self w) in
          let x := atleast_1d a in
          conclude a (kNL_vec (contents c) (psp pk) x (length x) 0)
            (after (self w) w
               [parse_pk2d_called p true;
                kNL_vec_called c (psp pk) x (length x) 0])
      end.
Proof.
  unfold kNL, bind at 1 2 3 4, parse_pk2d, bind, log, gets, lib_kNL_vec,
    call, conclude, bind, log, modify, lift, ret, raise, after; simpl.
  destruct (pk_lin (self w) !! p) as [pk|]; simpl; [|reflexivity].
  destruct (kNL_vec _ _ _ _ 0) as [[[out st]|e] m]; simpl;
    rewrite <- app_assoc; reflexivity.
Qed.

(** Every query that reaches the library ends in [conclude] on its
    reply, in a world whose object has the diagnostic message, the
    parameters and the spectra the call started with. *)
Lemma query_run q v a p w r :
  library_answer q w v a p = Some r ->
  exists w1, query q v a p w = conclude v r w1 /\
             status_message (cosmo (self w1)) = status_message (cosmo (self w))
             /\ same_parameters_and_spectra (self w) (self w1).
Proof.
  destruct q; simpl.
  - intros [= <-]. rewrite sigmaM_run. simpl.
    eexists. split; [reflexivity|]. simpl.
    split; [apply with_sigma_table_message|apply with_sigma_table_same].
  - destruct (pk_lin (self w) !! p) as [pk|] eqn:Hpk; simpl; [|discriminate].
    intros [= <-]. rewrite sigmaR_run, Hpk. simpl.
    eexists. split; [reflexivity|]. split; [reflexivity|apply same_refl].
  - destruct (pk_lin (self w) !! p) as [pk|] eqn:Hpk; simpl; [|discriminate].
    intros [= <-]. rewrite sigmaV_run, Hpk. simpl.
    eexists. split; [reflexivity|]. split; [reflexivity|apply same_refl].
  - destruct (pk_lin (self w) !! p) as [pk|] eqn:Hpk; simpl; [|discriminate].
    intros [= <-]. rewrite kNL_run, Hpk. simpl.
    eexists. split; [reflexivity|]. split; [reflexivity|apply same_refl].
Qed.

(** A query whose identifier does not resolve raises before the library
    is reached. *)
Lemma query_unresolved q v a p w :
  library_answer q w v a p = None ->
  query q v a p w
    = (Raise (KeyError p), after (self w) w [parse_pk2d_called p true]).
Proof.
  destruct q; simpl; [discriminate| | |];
    destruct (pk_lin (self w) !! p) as [pk|] eqn:Hpk; simpl;
    try discriminate; intros _.
  - rewrite sigmaR_run, Hpk. reflexivity.
  - rewrite sigmaV_run, Hpk. reflexivity.
  - rewrite kNL_run, Hpk. reflexivity.
Qed.

End Runs.

(** ** [sigmaR] as [sigma8] uses it *)

Section SigmaR.

Context {L : Lib}.

(** The object [sigmaR] leaves behind is the one it was given, with the
    message of the library in its structure when there is one. *)
Lemma sigmaR_self R a p w :
  exists m, self (sigmaR R a p w).2 = wrote m (self w).
Proof.
  rewrite sigmaR_run. destruct (pk_lin (self w) !! p); simpl.
  - rewrite conclude_world. eexists. reflexivity.
  - exists None. reflexivity.
Qed.

Lemma sigmaR_scalar x a p w r w' :
  sigmaR (Scalar x) a p w = (Ok r, w') -> exists y, r = Scalar y.
Proof.
  rewrite sigmaR_run. destruct (pk_lin (self w) !! p); simpl; [|discriminate].
  destruct (sigmaR_vec _ _ _ _ _ 0) as [[[out st]|e] m]; [|discriminate].
  rewrite conclude_ok. intros Hfin. apply finish_ndim in Hfin.
  destruct r as [y|ys]; [exists y; reflexivity|discriminate].
Qed.

(** [sigmaR] makes no call of [_fill_params]. *)
Lemma sigmaR_no_fill R a p w x :
  In (fill_params_called x) (trace (sigmaR R a p w).2) ->
  In (fill_params_called x) (trace w).
Proof.
  rewrite sigmaR_run.
  destruct (pk_lin (self w) !! p); simpl; rewrite ?conclude_world; simpl;
    rewrite in_app_iff; simpl; intros [Hin|Hin]; auto;
    repeat (destruct Hin as [Hin|Hin]; [discriminate|]); contradiction.
Qed.

(** When [sigmaR] returns on a scalar, the library has replied with
    status zero and a first entry, which is the value returned. *)
Lemma sigmaR_returns x a p w r w' :
  sigmaR (Scalar x) a p w = (Ok r, w') ->
  exists pk y out m,
    pk_lin (self w) !! p = Some pk /\
    sigmaR_vec (contents (cosmo (self w))) (psp pk) a [x] 1 0
      = (Ok (y :: out, 0), m) /\
    r = Scalar y /\
    w' = after (wrote m (self w)) w
           [parse_pk2d_called p true;
            sigmaR_vec_called (cosmo (self w)) (psp pk) a [x] 1 0].
Proof.
  rewrite sigmaR_run.
  destruct (pk_lin (self w) !! p) as [pk|]; simpl; [|discriminate].
  destruct (sigmaR_vec _ _ _ _ _ 0) as [[[out st]|e] m] eqn:Hlib;
    [|discriminate].
  rewrite conclude_ok. unfold finish, check, bind, gets, raise, ret. simpl.
  destruct (Z.eqb_spec st 0) as [->|_]; [|discriminate].
  destruct out as [|y out]; simpl; [discriminate|].
  intros [= <- <-]. exists pk, y, out, m. repeat split. exact Hlib.
Qed.

Lemma sigmaR_replay x a p w pk y out m :
  pk_lin (self w) !! p = Some pk ->
  sigmaR_vec (contents (cosmo (self w))) (psp pk) a [x] 1 0
    = (Ok (y :: out, 0), m) ->
  sigmaR (Scalar x) a p w
    = (Ok (Scalar y),
       after (wrote m (self w)) w
         [parse_pk2d_called p true;
          sigmaR_vec_called (cosmo (self w)) (psp pk) a [x] 1 0]).
Proof.
  intros Hpk Hlib. rewrite sigmaR_run, Hpk. simpl. rewrite Hlib. reflexivity.
Qed.

(** The steps of [sigma8], with the method [cosmo.sigmaR] bound by the
    class. *)
Lemma sigma8_run p w :
  let h := param_h (params (self w)) in
  sigma8 Cosmology_class p w
    = if PrimFloat.eqb h 0%float then (Raise ZeroDivisionError, w)
      else
        match sigmaR (Scalar (PrimFloat.div 8%float h)) (Scalar 1%float) p w
        with
        | (Ok sig8, w1) =>
            if PrimFloat.is_nan (param_sigma8 (params (self w1))) then
              match sig8 with
              | Scalar x =>
                  (Ok sig8, after (set_sigma8 x (self w1)) w1
                              [fill_params_called sig8])
              | Array1 _ =>
                  (Raise TypeError, after (self w1) w1
                                      [fill_params_called sig8])
              end
            else (Ok sig8, w1)
        | (Raise e, w1) => (Raise e, w1)
        end.
Proof.
  intros h. unfold sigma8, bind at 1 2, getitem, truediv; simpl.
  unfold gets at 1. fold h.
  destruct (PrimFloat.eqb h 0%float); [reflexivity|].
  unfold bind at 1 2, ret at 1. simpl.
  destruct (sigmaR _ _ p w) as [[sig8|e] w1]; [|reflexivity].
  unfold bind, gets, ret; simpl.
  destruct (PrimFloat.is_nan _); [|reflexivity].
  destruct sig8; reflexivity.
Qed.

End SigmaR.

(** C5: on identical inputs, [linear_matter_power] returns what
    [linear_power] returns for the default spectrum identifier, and
    [nonlin_matter_power] what [nonlin_power] returns for it: the same
    outcome and the same effect on the object. *)
Theorem matter_power_is_default_power {L : Lib} {I : Imports}
    (k a : ndarray) (w : World) :
  linear_matter_power Cosmology_class k a w
    = linear_power k a DEFAULT_POWER_SPECTRUM w /\
  nonlin_matter_power Cosmology_class k a w
    = nonlin_power k a DEFAULT_POWER_SPECTRUM w.
Proof. split; reflexivity. Qed.

(** ** Shape of the result *)

(** C1: for each of [sigmaM], [sigmaR], [sigmaV] and [kNL], when the
    library answers with status zero and an output of the length of the
    promoted argument, the call returns a value of the shape of the
    argument: a scalar for a scalar, an array of length [n] for an array
    of length [n]. *)
Theorem output_shape_mirrors_input {L : Lib} {I : Imports}
    (q : Query) (w : World) (v a : ndarray) (p : string) (out : list float)
    (m : option string) :
  library_answer q w v a p = Some (Ok (out, 0), m) ->
  length out = length (atleast_1d v) ->
  exists r w', query q v a p w = (Ok r, w') /\ shape r = shape v.
Proof.
  intros Hlib Hlen.
  destruct (query_run q v a p w _ Hlib) as (w1 & Hrun & _).
  rewrite conclude_ok in Hrun.
  destruct (finish_success v out (mk_World (wrote m (self w1)) (trace w1))
              Hlen) as (r & Hr & _ & Hs).
  exists r. eexists. split; [rewrite Hrun; exact Hr|exact Hs].
Qed.

Lemma output_shape_mirrors_input_witness :
  (exists r w', sigmaR (L:=Example.lib) (Array1 [16; 32]%float)
                  (Scalar 1%float) Example.matter
                  (Example.start Example.fresh) = (Ok r, w') /\
                shape r = [2%nat]) /\
  (exists r w', sigmaM (L:=Example.lib) (I:=Example.imports)
                  (Scalar 100%float) (Scalar 1%float)
                  (Example.start Example.fresh) = (Ok r, w') /\
                shape r = []).
Proof.
  split.
  - apply (output_shape_mirrors_input (L:=Example.lib) (I:=Example.imports)
             q_sigmaR (Example.start Example.fresh)
             (Array1 [16; 32]%float) (Scalar 1%float) Example.matter
             [0.5; 1]%float None); reflexivity.
  - apply (output_shape_mirrors_input (L:=Example.lib) (I:=Example.imports)
             q_sigmaM (Example.start Example.fresh)
             (Scalar 100%float) (Scalar 1%float) Example.matter
             [1]%float None); reflexivity.
Defined.

(** C10: a one-dimensional array of length one is not unwrapped.  When
    the library answers with status zero and one entry, each of the four
    queries returns that output as an array of length one; and whatever
    the argument, a returned value has the number of dimensions of the
    argument, so that a scalar comes back only for a scalar. *)
Theorem length_one_array_stays_array {L : Lib} {I : Imports}
    (q : Query) (w : World) (a : ndarray) (p : string) :
  (forall x out m,
     library_answer q w (Array1 [x]) a p = Some (Ok (out, 0), m) ->
     length out = 1%nat ->
     exists w', query q (Array1 [x]) a p w = (Ok (Array1 out), w') /\
                shape (Array1 out) = [1%nat]) /\
  (forall v r w', query q v a p w = (Ok r, w') -> ndim r = ndim v).
Proof.
  split.
  - intros x out m Hlib Hlen.
    destruct (query_run q _ a p w _ Hlib) as (w1 & Hrun & _).
    eexists. rewrite Hrun, conclude_ok, finish_array. simpl. rewrite Hlen.
    split; reflexivity.
  - intros v r w' Hq.
    destruct (library_answer q w v a p) as [[[[out st]|e] m]|] eqn:Hlib.
    + destruct (query_run q v a p w _ Hlib) as (w1 & Hrun & _).
      rewrite Hrun, conclude_ok in Hq. exact (finish_ndim _ _ _ _ _ _ Hq).
    + destruct (query_run q v a p w _ Hlib) as (w1 & Hrun & _).
      rewrite Hrun, conclude_raise in Hq. discriminate.
    + rewrite (query_unresolved q v a p w Hlib) in Hq. discriminate.
Qed.

Lemma length_one_array_stays_array_witness :
  (exists w', kNL (L:=Example.lib) (Array1 [1%float]) Example.matter
                (Example.start Example.normalised)
              = (Ok (Array1 [0.5%float]), w') /\
              shape (Array1 [0.5%float]) = [1%nat]) /\
  ndim (Scalar 0.5%float) = ndim (Scalar 16%float).
Proof.
  pose proof (length_one_array_stays_array (L:=Example.lib)
                (I:=Example.imports) q_kNL
                (Example.start Example.normalised) (Scalar 1%float)
                Example.matter) as [Harr _].
  pose proof (length_one_array_stays_array (L:=Example.lib)
                (I:=Example.imports) q_sigmaR
                (Example.start Example.normalised) (Scalar 1%float)
                Example.matter) as [_ Hdim].
  split.
  - apply (Harr 1%float [0.5%float] None); reflexivity.
  - eapply (Hdim (Scalar 16%float)). vm_compute. reflexivity.
Defined.

(** ** Status of the library *)




(** ** What [sigmaM] does before it reaches the library *)

(** C6: every call of [sigmaM] first invokes [compute_sigma] on the
    context and then calls the library once, on the handle with the
    table built, with the base-10 logarithms of the entries of the mass
    promoted to an array: each entry transformed once. *)
Theorem sigmaM_builds_table_and_takes_log10_once {L : Lib} {I : Imports}
    (M a : ndarray) (w : World) :
  let c := cosmo (with_sigma_table (self w)) in
  let logM := map log10 (atleast_1d M) in
  trace (sigmaM M a w).2
    = trace w ++ [compute_sigma_called;
                  sigM_vec_called c a logM (length logM) 0] /\
  computed_sigma (contents c) = true.
Proof.
  intros c logM. split; [|apply with_sigma_table_built].
  rewrite sigmaM_run, conclude_world. reflexivity.
Qed.

(** On the masses [1] and [10000] the library receives [0] and [4]. *)
Example sigmaM_passes_log10 :
  trace (sigmaM (L:=Example.lib) (I:=Example.imports)
           (Array1 [1; 10000]%float) (Scalar 1%float)
           (Example.start Example.fresh)).2
  = [compute_sigma_called;
     sigM_vec_called (mk_ccl_cosmology (mk_ccl_contents 1%N true) "")
       (Scalar 1%float) [0; 4]%float 2 0].
Proof. reflexivity. Qed.

(** ** Resolution of the spectrum *)

(** C8: [sigmaR], [sigmaV] and [kNL] first resolve their spectrum
    argument with [parse_pk2d] and [is_linear=True].  When the
    identifier is not registered as a linear spectrum the call raises
    there and the library is not reached; otherwise the library is
    called on the handle of the linear spectrum of that name. *)
Theorem spectrum_resolved_as_linear {L : Lib}
    (w : World) (v a : ndarray) (p : string) :
  let c := cosmo (self w) in
  let x := atleast_1d v in
  match pk_lin (self w) !! p with
  | None =>
      let rejected :=
        (Raise (KeyError p), after (self w) w [parse_pk2d_called p true]) in
      sigmaR v a p w = rejected /\
      sigmaV v a p w = rejected /\
      kNL v p w = rejected
  | Some pk =>
      trace (sigmaR v a p w).2
        = trace w ++ [parse_pk2d_called p true;
                      sigmaR_vec_called c (psp pk) a x (length x) 0] /\
      trace (sigmaV v a p w).2
        = trace w ++ [parse_pk2d_called p true;
                      sigmaV_vec_called c (psp pk) a x (length x) 0] /\
      trace (kNL v p w).2
        = trace w ++ [parse_pk2d_called p true;
                      kNL_vec_called c (psp pk) x (length x) 0]
  end.
Proof.
  intros c x. rewrite sigmaR_run, sigmaV_run, kNL_run.
  destruct (pk_lin (self w) !! p) as [pk|]; simpl.
  - rewrite !conclude_world. repeat split.
  - repeat split.
Qed.

(** An identifier registered among the non-linear spectra only is
    rejected by [sigmaR]. *)
Example sigmaR_rejects_nonlinear_only :
  pk_nl Example.fresh !! Example.halo = Some (mk_Pk2D 3%N) /\
  sigmaR (L:=Example.lib) (Scalar 8%float) (Scalar 1%float) Example.halo
    (Example.start Example.fresh)
  = (Raise (KeyError Example.halo),
     mk_World Example.fresh [parse_pk2d_called Example.halo true]).
Proof. split; reflexivity. Qed.

(** ** [sigma8] *)

(** C7: [sigma8] returns what [sigmaR] returns at the radius [8 / h],
    [h] read from the context, with scale factor [1] and the same
    spectrum identifier, whether the [sigma8] parameter of the context
    is defined or not.  ([8 / h] is Python's division: it exists for
    [h] other than zero.) *)
Theorem sigma8_is_sigmaR_at_8_over_h {L : Lib}
    (p : string) (w : World) :
  let h := param_h (params (self w)) in
  PrimFloat.eqb h 0%float = false ->
  (sigma8 Cosmology_class p w).1
    = (sigmaR (Scalar (PrimFloat.div 8%float h)) (Scalar 1%float) p w).1.
Proof.
  intros h Hh. rewrite sigma8_run. fold h. rewrite Hh.
  destruct (sigmaR _ _ p w) as [[sig8|e] w1] eqn:HR; [|reflexivity].
  destruct (sigmaR_scalar _ _ _ _ _ _ HR) as [y ->].
  destruct (PrimFloat.is_nan _); reflexivity.
Qed.

Lemma sigma8_is_sigmaR_at_8_over_h_witness :
  (sigma8 (Cosmology_class (L:=Example.lib)) Example.matter
     (Example.start Example.fresh)).1
  = (sigmaR (L:=Example.lib) (Scalar 16%float) (Scalar 1%float)
       Example.matter (Example.start Example.fresh)).1 /\
  (sigma8 (Cosmology_class (L:=Example.lib)) Example.matter
     (Example.start Example.normalised)).1
  = (sigmaR (L:=Example.lib) (Scalar 16%float) (Scalar 1%float)
       Example.matter (Example.start Example.normalised)).1.
Proof.
  split.
  - apply (sigma8_is_sigmaR_at_8_over_h (L:=Example.lib) Example.matter
             (Example.start Example.fresh)). reflexivity.
  - apply (sigma8_is_sigmaR_at_8_over_h (L:=Example.lib) Example.matter
             (Example.start Example.normalised)). reflexivity.
Defined.

(** With [h] equal to zero the division raises and [sigmaR] is not
    reached. *)
Lemma sigma8_zero_h {L : Lib} (p : string) (w : World) :
  PrimFloat.eqb (param_h (params (self w))) 0%float = true ->
  sigma8 Cosmology_class p w = (Raise ZeroDivisionError, w).
Proof. intros Hh. rewrite sigma8_run. simpl. now rewrite Hh. Qed.



(** C4, as the code has it: on a context whose [sigma8] parameter is
    defined, [sigma8] computes the value with [sigmaR] and returns it,
    and skips the write: [_fill_params] is not called, the stored
    [sigma8] keeps its value, and the call is the call of [sigmaR] at the
    radius [8 / h]. *)
Theorem sigma8_defined_skips_write {L : Lib} (p : string) (w : World) :
  let h := param_h (params (self w)) in
  let r := sigma8 Cosmology_class p w in
  PrimFloat.is_nan (param_sigma8 (params (self w))) = false ->
  param_sigma8 (params (self r.2)) = param_sigma8 (params (self w)) /\
  (forall x, In (fill_params_called x) (trace r.2) ->
             In (fill_params_called x) (trace w)) /\
  (PrimFloat.eqb h 0%float = false ->
     r = sigmaR (Scalar (PrimFloat.div 8%float h)) (Scalar 1%float) p w).
Proof.
  intros h r Hnan. subst r. rewrite sigma8_run. fold h.
  destruct (PrimFloat.eqb h 0%float); [repeat split; auto; discriminate|].
  destruct (sigmaR_self (Scalar (PrimFloat.div 8%float h)) (Scalar 1%float)
              p w) as [m Hself].
  pose proof (sigmaR_no_fill (Scalar (PrimFloat.div 8%float h))
                (Scalar 1%float) p w) as Htr.
  assert (Hparams : params (wrote m (self w)) = params (self w))
    by (destruct m; reflexivity).
  destruct (sigmaR _ _ p w) as [[sig8|e] w1]; simpl in *.
  - rewrite Hself, Hparams, Hnan. simpl.
    rewrite Hself, Hparams. repeat split; auto.
  - rewrite Hself, Hparams. repeat split; auto.
Qed.

Lemma sigma8_defined_skips_write_witness :
  param_sigma8
    (params (self (sigma8 (Cosmology_class (L:=Example.lib)) Example.matter
                     (Example.start Example.normalised)).2))
  = 0.75%float /\
  sigma8 (Cosmology_class (L:=Example.lib)) Example.matter
    (Example.start Example.normalised)
  = sigmaR (L:=Example.lib) (Scalar 16%float) (Scalar 1%float) Example.matter
      (Example.start Example.normalised).
Proof.
  destruct (sigma8_defined_skips_write (L:=Example.lib) Example.matter
              (Example.start Example.normalised)) as (Hkept & _ & Hrun);
    [reflexivity|].
  split; [exact Hkept|apply Hrun; reflexivity].
Defined.

(** C4, as the claim has it, fails: on the context created with
    [sigma8 = 0.75], for which the library computes [0.5], [sigma8]
    returns [0.5], makes no call of [_fill_params], and leaves [0.75]
    in the context. *)
Lemma sigma8_defined_not_overwritten :
  let r := sigma8 (Cosmology_class (L:=Example.lib)) Example.matter
             (Example.start Example.normalised) in
  PrimFloat.is_nan (param_sigma8 (params Example.normalised)) = false /\
  r = (Ok (Scalar 0.5%float),
       mk_World Example.normalised
         [parse_pk2d_called Example.matter true;
          sigmaR_vec_called Example.fresh_handle 1%N (Scalar 1%float)
            [16%float] 1 0]) /\
  param_sigma8 (params (self r.2)) = 0.75%float /\
  ~ In (fill_params_called (Scalar 0.5%float)) (trace r.2).
Proof.
  repeat split. intros Hin. vm_compute in Hin.
  destruct Hin as [Hin|[Hin|[]]]; discriminate.
Qed.

(** ** Writes to the context *)

(** C9, as the code has it: every operation of the module leaves the
    parameters and the registries of spectra of the context as they
    were, but for the [sigma8] parameter, which [sigma8] alone may set, to
    the value it returns.  The library-side structure of the context may
    change: [sigmaM] leaves it with the variance table built, by its call
    of [compute_sigma], and the routines of the library leave their
    diagnostic message in it. *)
Theorem context_changes {L : Lib} {I : Imports}
    (w : World) (k v a : ndarray) (p : string) :
  let kept r := same_parameters_and_spectra (self w) (self (r : _ * World).2) in
  kept (linear_power k a p w) /\
  kept (nonlin_power k a p w) /\
  kept (linear_matter_power Cosmology_class k a w) /\
  kept (nonlin_matter_power Cosmology_class k a w) /\
  kept (sigmaR v a p w) /\
  kept (sigmaV v a p w) /\
  kept (kNL v p w) /\
  kept (sigmaM v a w) /\
  computed_sigma (contents (cosmo (self (sigmaM v a w).2))) = true /\
  (let r := sigma8 Cosmology_class p w in
   pk_lin (self r.2) = pk_lin (self w) /\
   pk_nl (self r.2) = pk_nl (self w) /\
   param_h (params (self r.2)) = param_h (params (self w)) /\
   (param_sigma8 (params (self r.2)) = param_sigma8 (params (self w)) \/
    exists x, r.1 = Ok (Scalar x) /\ param_sigma8 (params (self r.2)) = x)).
Proof.
  intros kept.
  assert (Hlin : forall q, kept (linear_power k a q w)).
  { intros q. unfold kept, linear_power, get_linear_power, Pk2D_call, call,
      bind, log, gets, modify, lift, ret, raise; simpl.
    destruct (pk_lin (self w) !! q); simpl; [|apply same_refl].
    destruct (pk_eval _ _ k a) as [[r|e] m]; simpl; apply wrote_same. }
  assert (Hnl : forall q, kept (nonlin_power k a q w)).
  { intros q. unfold kept, nonlin_power, get_nonlin_power, Pk2D_call, call,
      bind, log, gets, modify, lift, ret, raise; simpl.
    destruct (pk_nl (self w) !! q); simpl; [|apply same_refl].
    destruct (pk_eval _ _ k a) as [[r|e] m]; simpl; apply wrote_same. }
  assert (Hq : forall q, kept (query q v a p w)).
  { intros q. unfold kept.
    destruct (library_answer q w v a p) as [r|] eqn:Hlib.
    - destruct (query_run q v a p w r Hlib) as (w1 & -> & _ & Hsame).
      rewrite conclude_world. simpl.
      exact (same_trans _ _ _ Hsame (wrote_same _ _)).
    - rewrite (query_unresolved q v a p w Hlib). apply same_refl. }
  split; [apply Hlin|]. split; [apply Hnl|].
  split; [apply Hlin|]. split; [apply Hnl|].
  split; [apply (Hq q_sigmaR)|]. split; [apply (Hq q_sigmaV)|].
  split; [apply (Hq q_kNL)|]. split; [apply (Hq q_sigmaM)|].
  split.
  { rewrite sigmaM_run, conclude_world. simpl.
    rewrite wrote_contents. apply with_sigma_table_built. }
  simpl. rewrite sigma8_run.
  destruct (PrimFloat.eqb _ 0%float); [repeat split; now left|].
  destruct (sigmaR_self (Scalar (PrimFloat.div 8%float
              (param_h (params (self w))))) (Scalar 1%float) p w)
    as [m Hself].
  destruct (sigmaR _ _ p w) as [[sig8|e] w1]; simpl in *;
    [|rewrite Hself; destruct m; repeat split; now left].
  destruct (PrimFloat.is_nan _);
    [|simpl; rewrite Hself; destruct m; repeat split; now left].
  destruct sig8 as [x|xs]; simpl; rewrite Hself;
    [|destruct m; repeat split; now left].
  destruct m; repeat split; right; exists x; split; reflexivity.
Qed.

(** C9, as the claim has it, fails for [sigmaM]: on a context created
    without the variance table, the call leaves the context with the
    table built. *)
Lemma sigmaM_changes_fresh_context :
  let r := sigmaM (L:=Example.lib) (I:=Example.imports) (Scalar 100%float)
             (Scalar 1%float) (Example.start Example.fresh) in
  computed_sigma (contents (cosmo Example.fresh)) = false /\
  computed_sigma (contents (cosmo (self r.2))) = true /\
  self r.2 <> Example.fresh.
Proof.
  repeat split. intros Heq.
  apply (f_equal (fun c => computed_sigma (contents (cosmo c)))) in Heq.
  vm_compute in Heq. discriminate.
Qed.

(** * Further properties of the module *)

(** ** Scalars and arrays of one entry *)

(** X1: a call with a scalar is the call with the array of that one
    entry, followed by taking entry [0]: the same calls are made and the
    same context is left, an error of the array call is the error of
    the scalar call, and an empty output gives [IndexError]. *)
Theorem scalar_call_is_item0_of_array_call {L : Lib} {I : Imports}
    (q : Query) (x : float) (a : ndarray) (p : string) (w : World) :
  query q (Scalar x) a p w
    = match query q (Array1 [x]) a p w with
      | (Ok (Array1 (y :: _)), w') => (Ok (Scalar y), w')
      | (Ok (Array1 []), w') => (Raise IndexError, w')
      | (Ok (Scalar y), w') => (Ok (Scalar y), w')
      | (Raise e, w') => (Raise e, w')
      end.
Proof.
  destruct q; simpl.
  - rewrite !sigmaM_run. simpl.
    destruct (sigM_vec _ a _ _ 0) as [[[out st]|e] m]; [|reflexivity].
    rewrite !conclude_ok.
    unfold finish, check, bind, gets, raise, ret; simpl.
    destruct (st =? 0); [destruct out|]; reflexivity.
  - rewrite !sigmaR_run. destruct (pk_lin (self w) !! p); [|reflexivity].
    simpl. destruct (sigmaR_vec _ _ a _ _ 0) as [[[out st]|e] m];
      [|reflexivity].
    rewrite !conclude_ok.
    unfold finish, check, bind, gets, raise, ret; simpl.
    destruct (st =? 0); [destruct out|]; reflexivity.
  - rewrite !sigmaV_run. destruct (pk_lin (self w) !! p); [|reflexivity].
    simpl. destruct (sigmaV_vec _ _ a _ _ 0) as [[[out st]|e] m];
      [|reflexivity].
    rewrite !conclude_ok.
    unfold finish, check, bind, gets, raise, ret; simpl.
    destruct (st =? 0); [destruct out|]; reflexivity.
  - rewrite !kNL_run. destruct (pk_lin (self w) !! p); [|reflexivity].
    simpl. destruct (kNL_vec _ _ _ _ 0) as [[[out st]|e] m]; [|reflexivity].
    rewrite !conclude_ok.
    unfold finish, check, bind, gets, raise, ret; simpl.
    destruct (st =? 0); [destruct out|]; reflexivity.
Qed.

(** ** Errors of the queries *)



(** X3: with status zero the result follows the output of the library,
    not the argument: for an array argument, the empty one included, the
    output is returned as it is, whatever its length; for a scalar
    argument its first entry is returned and the rest dropped, and an
    empty output raises [IndexError]. *)
Theorem result_follows_library_output {L : Lib} {I : Imports}
    (q : Query) (v a : ndarray) (p : string) (w : World)
    (out : list float) (m : option string) :
  library_answer q w v a p = Some (Ok (out, 0), m) ->
  (query q v a p w).1
    = match v, out with
      | Array1 _, _ => Ok (Array1 out)
      | Scalar _, y :: _ => Ok (Scalar y)
      | Scalar _, [] => Raise IndexError
      end.
Proof.
  intros Hlib.
  destruct (query_run q v a p w _ Hlib) as (w1 & -> & _).
  rewrite conclude_ok. destruct v, out; reflexivity.
Qed.

Lemma result_follows_library_output_witness :
  (kNL (L:=Example.lib) (Array1 []) Example.matter
     (Example.start Example.fresh)).1 = Ok (Array1 []) /\
  (sigmaR (L:=Example.lib) (Scalar 32%float) (Scalar 1%float) Example.matter
     (Example.start Example.fresh)).1 = Ok (Scalar 1%float) /\
  (sigmaV (L:=Example.empty_lib) (Scalar 32%float) (Scalar 1%float)
     Example.matter (Example.start Example.fresh)).1 = Raise IndexError.
Proof.
  split; [|split].
  - apply (result_follows_library_output (L:=Example.lib)
             (I:=Example.imports) q_kNL (Array1 []) (Scalar 1%float)
             Example.matter (Example.start Example.fresh) [] None).
    reflexivity.
  - apply (result_follows_library_output (L:=Example.lib)
             (I:=Example.imports) q_sigmaR (Scalar 32%float) (Scalar 1%float)
             Example.matter (Example.start Example.fresh) [1%float] None).
    reflexivity.
  - apply (result_follows_library_output (L:=Example.empty_lib)
             (I:=Example.imports) q_sigmaV (Scalar 32%float) (Scalar 1%float)
             Example.matter (Example.start Example.fresh) [] None).
    reflexivity.
Defined.

(** ** More on [sigma8] *)

(** X4: [sigma8] raises either [ZeroDivisionError], when [h] is zero,
    before anything is called, or the error [sigmaR] raised at the
    radius [8 / h]; in both cases [_fill_params] is not called, also
    when the stored [sigma8] is not defined, and the parameters and the
    registries of spectra of the context are as they were. *)
Theorem sigma8_failure_writes_nothing {L : Lib}
    (p : string) (w w' : World) (e : exn) :
  let h := param_h (params (self w)) in
  sigma8 Cosmology_class p w = (Raise e, w') ->
  ((PrimFloat.eqb h 0%float = true /\ e = ZeroDivisionError /\ w' = w) \/
   (PrimFloat.eqb h 0%float = false /\
    sigmaR (Scalar (PrimFloat.div 8%float h)) (Scalar 1%float) p w
      = (Raise e, w'))) /\
  same_parameters_and_spectra (self w) (self w') /\
  (forall x, In (fill_params_called x) (trace w') ->
             In (fill_params_called x) (trace w)).
Proof.
  intros h. rewrite sigma8_run. fold h.
  destruct (PrimFloat.eqb h 0%float).
  { intros [= <- <-]. split; [left; repeat split|].
    split; [apply same_refl|auto]. }
  destruct (sigmaR_self (Scalar (PrimFloat.div 8%float h)) (Scalar 1%float)
              p w) as [m Hself].
  pose proof (sigmaR_no_fill (Scalar (PrimFloat.div 8%float h))
                (Scalar 1%float) p w) as Hfill.
  destruct (sigmaR _ _ p w) as [[sig8|e1] w1] eqn:HR; simpl in *.
  - destruct (sigmaR_scalar _ _ _ _ _ _ HR) as [y ->].
    destruct (PrimFloat.is_nan _); discriminate.
  - intros [= <- <-]. split; [right; repeat split|].
    split; [rewrite Hself; apply wrote_same|exact Hfill].
Qed.

Lemma sigma8_failure_writes_nothing_witness :
  PrimFloat.is_nan (param_sigma8 (params Example.fresh)) = true /\
  sigma8 (Cosmology_class (L:=Example.lib)) Example.halo
    (Example.start Example.fresh)
  = (Raise (KeyError Example.halo),
     mk_World Example.fresh [parse_pk2d_called Example.halo true]) /\
  sigmaR (L:=Example.lib) (Scalar 16%float) (Scalar 1%float) Example.halo
    (Example.start Example.fresh)
  = (Raise (KeyError Example.halo),
     mk_World Example.fresh [parse_pk2d_called Example.halo true]).
Proof.
  assert (Hrun :
    sigma8 (Cosmology_class (L:=Example.lib)) Example.halo
      (Example.start Example.fresh)
    = (Raise (KeyError Example.halo),
       mk_World Example.fresh [parse_pk2d_called Example.halo true]))
    by reflexivity.
  split; [reflexivity|]. split; [exact Hrun|].
  destruct (sigma8_failure_writes_nothing (L:=Example.lib) Example.halo
              _ _ _ Hrun) as ([(Hzero & _)|(_ & HR)] & _).
  - discriminate Hzero.
  - exact HR.
Defined.

(** X5: with [h] other than zero and the identifier resolving to a
    linear spectrum, the calls of [sigma8] are: [parse_pk2d] with
    [is_linear=True]; the library's [sigmaR_vec] at scale factor [1] on
    the single radius [8 / h] for one output; and then, only when the
    call returns and the stored [sigma8] is not defined, one call of
    [_fill_params] with the returned value. *)
Theorem sigma8_calls {L : Lib} (p : string) (w : World) (pk : Pk2D) :
  let h := param_h (params (self w)) in
  let r := sigma8 Cosmology_class p w in
  PrimFloat.eqb h 0%float = false ->
  pk_lin (self w) !! p = Some pk ->
  trace r.2
    = trace w
      ++ [parse_pk2d_called p true;
          sigmaR_vec_called (cosmo (self w)) (psp pk) (Scalar 1%float)
            [PrimFloat.div 8%float h] 1 0]
      ++ match r.1 with
         | Ok v =>
             if PrimFloat.is_nan (param_sigma8 (params (self w)))
             then [fill_params_called v] else []
         | Raise _ => []
         end.
Proof.
  intros h r Hh Hpk. subst r. rewrite sigma8_run. fold h. rewrite Hh.
  rewrite sigmaR_run, Hpk. simpl.
  destruct (sigmaR_vec _ _ _ _ _ 0) as [[[out st]|e] m]; simpl;
    [|reflexivity].
  assert (Hparams : params (wrote m (self w)) = params (self w))
    by (destruct m; reflexivity).
  unfold conclude, finish, check, bind, modify, gets, raise, ret, after; simpl.
  destruct (st =? 0); simpl; [|reflexivity].
  destruct out as [|y out]; simpl; [reflexivity|].
  rewrite Hparams.
  destruct (PrimFloat.is_nan _); simpl; rewrite <- ?app_assoc; reflexivity.
Qed.

Lemma sigma8_calls_witness :
  trace (sigma8 (Cosmology_class (L:=Example.lib)) Example.matter
           (Example.start Example.fresh)).2
  = [parse_pk2d_called Example.matter true;
     sigmaR_vec_called Example.fresh_handle 1%N (Scalar 1%float)
       [16%float] 1 0;
     fill_params_called (Scalar 0.5%float)].
Proof.
  apply (sigma8_calls (L:=Example.lib) Example.matter
           (Example.start Example.fresh) (mk_Pk2D 1%N)); reflexivity.
Defined.

(** X6: a computed value that is not a number does not define the
    parameter.  When [sigma8] returns NaN on a context whose [sigma8]
    is not defined, the parameter is still not defined afterwards, and
    the next call returns the same and calls [_fill_params] again. *)
Theorem sigma8_nan_is_written_again {L : Lib}
    (p : string) (w w' : World) (x : float) :
  sigma8 Cosmology_class p w = (Ok (Scalar x), w') ->
  PrimFloat.is_nan (param_sigma8 (params (self w))) = true ->
  PrimFloat.is_nan x = true ->
  PrimFloat.is_nan (param_sigma8 (params (self w'))) = true /\
  exists w'' t,
    sigma8 Cosmology_class p w' = (Ok (Scalar x), w'') /\
    trace w'' = trace w' ++ t ++ [fill_params_called (Scalar x)].
Proof.
  intros Hrun Hnan Hx. revert Hrun. rewrite sigma8_run.
  destruct (PrimFloat.eqb (param_h (params (self w))) 0%float) eqn:Hh0;
    [discriminate|].
  destruct (sigmaR _ _ p w) as [[sig8|e] w1] eqn:HR; [|discriminate].
  destruct (sigmaR_returns _ _ _ _ _ _ HR)
    as (pk & y & out & m & Hpk & Hlib & -> & ->).
  assert (Hparams : params (wrote m (self w)) = params (self w))
    by (destruct m; reflexivity).
  simpl. rewrite Hparams, Hnan. intros [= -> <-].
  simpl. split; [exact Hx|].
  set (w2 := after (set_sigma8 x (wrote m (self w)))
               (after (wrote m (self w)) w
                  [parse_pk2d_called p true;
                   sigmaR_vec_called (cosmo (self w)) (psp pk)
                     (Scalar 1%float)
                     [PrimFloat.div 8%float (param_h (params (self w)))]
                     1 0])
               [fill_params_called (Scalar x)]).
  assert (Hpk2 : pk_lin (self w2) !! p = Some pk)
    by (subst w2; simpl; destruct m; exact Hpk).
  assert (Hlib2 :
    sigmaR_vec (contents (cosmo (self w2))) (psp pk) (Scalar 1%float)
      [PrimFloat.div 8%float (param_h (params (self w)))] 1 0
    = (Ok (x :: out, 0), m))
    by (subst w2; simpl; destruct m; exact Hlib).
  assert (Hh2 : param_h (params (self w2)) = param_h (params (self w)))
    by (subst w2; simpl; destruct m; reflexivity).
  assert (Hx2 : PrimFloat.is_nan
                  (param_sigma8 (params (wrote m (self w2)))) = true)
    by (subst w2; simpl; destruct m; exact Hx).
  rewrite sigma8_run. rewrite Hh2, Hh0.
  rewrite (sigmaR_replay _ _ p w2 pk x out m Hpk2 Hlib2).
  cbn [self after]. rewrite Hx2.
  eexists.
  exists [parse_pk2d_called p true;
          sigmaR_vec_called (cosmo (self w2)) (psp pk) (Scalar 1%float)
            [PrimFloat.div 8%float (param_h (params (self w)))] 1 0].
  split; [reflexivity|].
  cbn [trace after w2]. rewrite <- !app_assoc. reflexivity.
Qed.

Lemma sigma8_nan_is_written_again_witness :
  let c := mk_Cosmology Example.fresh_handle
             (mk_CosmologyParams PrimFloat.nan PrimFloat.nan)
             {[ Example.matter := mk_Pk2D 1%N ]} ∅ in
  let calls := [parse_pk2d_called Example.matter true;
                sigmaR_vec_called Example.fresh_handle 1%N (Scalar 1%float)
                  [PrimFloat.nan] 1 0;
                fill_params_called (Scalar PrimFloat.nan)] in
  exists w'' t,
    sigma8 (Cosmology_class (L:=Example.lib)) Example.matter
      (mk_World c calls) = (Ok (Scalar PrimFloat.nan), w'') /\
    trace w'' = calls ++ t ++ [fill_params_called (Scalar PrimFloat.nan)].
Proof.
  intros c calls.
  apply (sigma8_nan_is_written_again (L:=Example.lib) Example.matter
           (mk_World c []) (mk_World c calls) PrimFloat.nan);
    reflexivity.
Defined.
